(** * server.js: the blog-post store and its request handlers

    A shallow embedding of [src/server.js]: the in-memory [blogPosts]
    array, the four [/api/posts] handlers, the production static fallback
    and the centralized error middleware, followed by the properties of
    the specification checked against them. *)

From stdpp Require Import gmap strings list fin_maps pretty.

Set Warnings "-register-all".
Open Scope Z_scope.

(** ** JavaScript values

    What [express.json()] / [express.urlencoded()] hand to a handler and
    what [res.json] serialises.  [VNum] holds the integral numbers, the
    only ones the program computes with ([Date.now()], status codes);
    a non-integral number of a payload is kept as its JSON literal.  An
    object is the finite map of its own enumerable properties,
    [undefined] is an absent key. *)
Inductive value : Type :=
| VNull
| VBool (b : bool)
| VNum (n : Z)
| VFrac (literal : string)
| VStr (s : string)
| VArr (l : list value)
| VObj (m : gmap string value).

(** A stored post is a plain object. *)
Abbreviation post := (gmap string value).

(** The own enumerable properties that the spread syntax [...v] copies:
    the fields of an object, the index-keyed elements of an array, the
    index-keyed characters of a string, nothing for the other primitives. *)
Definition indexed (l : list value) : gmap string value :=
  list_to_map (imap (λ i v, (pretty i, v)) l).

Definition own_props (v : value) : gmap string value :=
  match v with
  | VObj m => m
  | VArr l => indexed l
  | VStr s => indexed ((λ c, VStr (String c EmptyString)) <$> String.list_ascii_of_string s)
  | VNull | VBool _ | VNum _ | VFrac _ => ∅
  end.

(** Object literals are evaluated left to right: [k: v] defines or
    overwrites one key, [...src] overwrites with every property of [src]. *)
Definition obj_set (k : string) (v : value) (o : post) : post := <[k := v]> o.
Definition obj_spread (src : post) (o : post) : post := src ∪ o.

(** [a || b] on a possibly undefined left operand. *)
Definition truthy (v : value) : bool :=
  match v with
  | VNull => false
  | VBool b => b
  | VNum n => negb (n =? 0)
  | VFrac _ => true
  | VStr s => negb (String.eqb s "")
  | VArr _ | VObj _ => true
  end.

Definition js_or (a : option value) (b : value) : value :=
  match a with
  | Some v => if truthy v then v else b
  | None => b
  end.

(** [p.id === postId] with [postId] a string (a route parameter). *)
Definition id_is (postId : string) (p : post) : bool :=
  match p !! "id" with
  | Some (VStr s) => bool_decide (s = postId)
  | _ => false
  end.

(** ** Process state, responses and the handler monad *)

Inductive level := Info | Warn | Error.

Record state := mkState {
  blogPosts : list post;
  logs : list (level * string)
}.

Inductive res_body :=
| BJson (v : value)      (* res.json(v) *)
| BEmpty                 (* res.send() *)
| BFile (content : string). (* res.sendFile / express.static *)

Record response := mkResponse {
  status : value;
  body : res_body
}.

Definition M (A : Type) : Type := state → A * state.
#[global] Instance M_ret : MRet M := λ A a s, (a, s).
#[global] Instance M_bind : MBind M :=
  λ A B f m s, let '(a, s') := m s in f a s'.

Definition get_posts : M (list post) := λ s, (blogPosts s, s).
Definition set_posts (l : list post) : M unit :=
  λ s, (tt, mkState l (logs s)).
(** A logger call records its level and message; the extra arguments
    winston receives (a title, the request details) are not recorded. *)
Definition logger (lv : level) (msg : string) : M unit :=
  λ s, (tt, mkState (blogPosts s) (logs s ++ [(lv, msg)])).

(** The result of running a handler. *)
Definition result_of {A} (m : M A) (s : state) : A := fst (m s).
Definition state_after {A} (m : M A) (s : state) : state := snd (m s).

(** The seed collection (lines 83-107). *)
Definition seed1 : post :=
  {[ "id" := VStr "post_1678886400000";
     "title" := VStr "First Blog Post";
     "snippet" := VStr "A short introduction to my blog.";
     "fullContent" := VStr "This is the full content of the first blog post. It covers various topics related to web development and personal experiences.";
     "author" := VStr "Sourabh Madane";
     "date" := VStr "2023-03-15";
     "timestamp" := VNum 1678886400000;
     "images" := VArr [] ]}.

Definition image (url prompt : string) : value :=
  VObj {[ "url" := VStr url; "prompt" := VStr prompt ]}.

Definition seed2 : post :=
  {[ "id" := VStr "post_1678972800000";
     "title" := VStr "Angular Standalone Components";
     "snippet" := VStr "Exploring the new features in Angular 17+.";
     "fullContent" := VStr "Dive deep into Angular 17's standalone components, a feature that simplifies the Angular development experience by removing the need for NgModules.";
     "author" := VStr "Sourabh Madane";
     "date" := VStr "2023-03-16";
     "timestamp" := VNum 1678972800000;
     "images" := VArr
       [ image "https://placehold.co/600x400/87CEFA/FFFFFF?text=Angular+17"
               "Angular 17 logo concept";
         image "https://placehold.co/600x400/D4BFFF/FFFFFF?text=Standalone"
               "Code snippets for standalone components" ] ]}.

Definition init : state := mkState [seed1; seed2] [].

(** ** The API handlers (lines 109-157) *)

Definition json (code : Z) (v : value) : response := mkResponse (VNum code) (BJson v).

(** [app.get('/api/posts')] *)
Definition get_posts_handler : M response :=
  logger Info "GET /api/posts requested" ;;
  l ← get_posts;
  mret (json 200 (VArr (VObj <$> l))).

(** The object literal of line 117: [t_id] and [t_ts] are the two
    readings of [Date.now()], in evaluation order. *)
Definition newPost (t_id t_ts : Z) (req_body : value) : post :=
  obj_spread (own_props req_body)
    (obj_set "timestamp" (VNum t_ts)
      (obj_set "id" (VStr ("post_" +:+ pretty t_id)) ∅)).

(** [app.post('/api/posts')] *)
Definition post_handler (t_id t_ts : Z) (req_body : value) : M response :=
  let np := newPost t_id t_ts req_body in
  l ← get_posts;
  set_posts (l ++ [np]) ;;
  logger Info "POST /api/posts - New post created:" ;;
  mret (json 201 (VObj np)).

(** [{ ...blogPosts[index], ...updatedPostData, id: postId }] *)
Definition merged (old : post) (updatedPostData : value) (postId : string) : post :=
  obj_set "id" (VStr postId)
    (obj_spread (own_props updatedPostData)
      (obj_spread old ∅)).

Definition not_found : response :=
  json 404 (VObj {[ "message" := VStr "Post not found" ]}).

(** [app.put('/api/posts/:id')]; [findIndex] is [list_find], with [None]
    for [-1]. *)
Definition put_handler (postId : string) (updatedPostData : value) : M response :=
  l ← get_posts;
  match list_find (λ p, id_is postId p) l with
  | Some (index, old) =>
      let new := merged old updatedPostData postId in
      set_posts (<[index := new]> l) ;;
      logger Info ("PUT /api/posts/" +:+ postId +:+ " - Post updated:") ;;
      mret (json 200 (VObj new))
  | None =>
      logger Warn ("PUT /api/posts/" +:+ postId +:+ " - Post not found.") ;;
      mret not_found
  end.

(** [app.delete('/api/posts/:id')] *)
Definition delete_handler (postId : string) : M response :=
  l ← get_posts;
  let initialLength := length l in
  let l' := filter (λ p, ¬ id_is postId p) l in
  set_posts l' ;;
  if (length l' <? initialLength)%nat then
    logger Info ("DELETE /api/posts/" +:+ postId +:+ " - Post deleted.") ;;
    mret (mkResponse (VNum 204) BEmpty)
  else
    logger Warn ("DELETE /api/posts/" +:+ postId +:+ " - Post not found.") ;;
    mret not_found.

(** ** Routing (Express's layer stack)

    A request path is given as its segments: [/api/posts/7] is
    [["api"; "posts"; "7"]], the leading slash and an optional trailing
    one dropped, as Express's non-strict routing ignores it. *)

(** [OTHER] stands for the methods no route of this file names; HEAD and
    OPTIONS, which Express and the cors middleware answer themselves,
    are not modelled. *)
Inductive method := GET | POST | PUT | DELETE | OTHER.

#[global] Instance method_eq_dec : EqDecision method.
Proof. solve_decision. Defined.

Record request := mkRequest {
  req_method : method;
  req_path : list string;
  req_body : value
}.

Inductive seg := Lit (s : string) | Param (name : string).
Inductive pattern := Segs (l : list seg) | Star.

(** Literal segments are compared case-insensitively. *)
Definition lower_ascii (c : Ascii.ascii) : Ascii.ascii :=
  let n := Ascii.nat_of_ascii c in
  if ((65 <=? n) && (n <=? 90))%nat then Ascii.ascii_of_nat (n + 32) else c.

Fixpoint lower (s : string) : string :=
  match s with
  | EmptyString => EmptyString
  | String c r => String (lower_ascii c) (lower r)
  end.

Fixpoint match_segs (pat : list seg) (path : list string)
    : option (gmap string string) :=
  match pat, path with
  | [], [] => Some ∅
  | Lit s :: pat', x :: path' =>
      if String.eqb (lower s) (lower x) then match_segs pat' path' else None
  | Param name :: pat', x :: path' =>
      if String.eqb x "" then None
      else <[name := x]> <$> match_segs pat' path'
  | _, _ => None
  end.

Definition match_path (pat : pattern) (path : list string)
    : option (gmap string string) :=
  match pat with
  | Segs l => match_segs l path
  | Star => Some ∅
  end.

(** A layer is a route ([app.get], [app.post], ...) or a middleware
    ([app.use]) that answers or calls [next()] ([None]). *)
Inductive layer :=
| Route (m : method) (pat : pattern)
        (h : gmap string string → request → M response)
| Use (mw : request → M (option response)).

Fixpoint run (stack : list layer) (req : request) : M (option response) :=
  match stack with
  | [] => mret None
  | Route m pat h :: rest =>
      if bool_decide (req_method req = m) then
        match match_path pat (req_path req) with
        | Some params => r ← h params req; mret (Some r)
        | None => run rest req
        end
      else run rest req
  | Use mw :: rest =>
      r ← mw req;
      match r with
      | Some resp => mret (Some resp)
      | None => run rest req
      end
  end.

(** An error object as the error middleware reads it: [err.message],
    [err.status] ([None] when undefined) and the enumerable own
    properties, which are what [res.json] serialises of it. *)
Record js_error := mkError {
  err_message : string;
  err_status : option value;
  err_enumerable : gmap string value
}.

(** [req.params.id]; the parameter is always bound by [/api/posts/:id]. *)
Definition param_id (params : gmap string string) : string :=
  default "" (params !! "id").

Definition posts_path : pattern := Segs [Lit "api"; Lit "posts"].
Definition posts_id_path : pattern := Segs [Lit "api"; Lit "posts"; Param "id"].

(** The four API routes, in registration order (lines 110-157). *)
Definition api_routes (t_id t_ts : Z) : list layer :=
  [ Route GET posts_path (λ _ _, get_posts_handler);
    Route POST posts_path (λ _ req, post_handler t_id t_ts (req_body req));
    Route PUT posts_id_path (λ params req, put_handler (param_id params) (req_body req));
    Route DELETE posts_id_path (λ params _, delete_handler (param_id params)) ].

Section Server.

(** The environment of the process: [process.env.NODE_ENV], the file
    [express.static] finds for a request path under the Angular build
    directory ([None]: it calls [next()]), and the outcome of
    [res.sendFile] on that directory's [index.html]. *)
Variable env_NODE_ENV : option string.
Variable static_file : list string → option string.
Variable index_html : string + js_error.

(** [process.env.NODE_ENV || 'development'] (line 22) *)
Definition NODE_ENV : string :=
  match env_NODE_ENV with
  | Some s => if String.eqb s "" then "development" else s
  | None => "development"
  end.

Definition production : bool := String.eqb NODE_ENV "production".

(** The centralized error middleware (lines 181-194). *)
Definition error_message : string :=
  "An unexpected error occurred. Please try again later.".

Definition error_details (err : js_error) : value :=
  if String.eqb NODE_ENV "development" then VObj (err_enumerable err) else VObj ∅.

Definition error_middleware (err : js_error) : M response :=
  logger Error ("Unhandled Error: " +:+ err_message err) ;;
  mret (mkResponse (js_or (err_status err) (VNum 500))
          (BJson (VObj {[ "message" := VStr error_message;
                          "error" := error_details err ]}))).

(** [express.static(angularDistPath)]: answers GET requests for which
    it finds a file, hands every other request on. *)
Definition static_middleware (req : request) : M (option response) :=
  match req_method req with
  | GET =>
      match static_file (req_path req) with
      | Some content => mret (Some (mkResponse (VNum 200) (BFile content)))
      | None => mret None
      end
  | _ => mret None
  end.

(** [app.get('*')] (lines 174-176): [res.sendFile] answers with the
    document, or passes its error to the error middleware. *)
Definition index_handler : M response :=
  match index_html with
  | inl content => mret (mkResponse (VNum 200) (BFile content))
  | inr err => error_middleware err
  end.

(** The layers registered only in production (lines 163-177). *)
Definition production_routes : list layer :=
  [ Use static_middleware;
    Route GET Star (λ _ _, index_handler) ].

(** The whole stack, in registration order. *)
Definition app (t_id t_ts : Z) : list layer :=
  api_routes t_id t_ts ++ (if production then production_routes else []).

(** Handling one request; [None]: no layer answered and Express's own
    final handler replies. *)
Definition handle (t_id t_ts : Z) (req : request) : M (option response) :=
  run (app t_id t_ts) req.

End Server.

(** The [error] field of a JSON answer. *)
Definition error_field (b : res_body) : option value :=
  match b with
  | BJson (VObj m) => m !! "error"
  | _ => None
  end.

(** Whether a route of the stack is the one a request selects. *)
Definition layer_matches (l : layer) (req : request) : bool :=
  match l with
  | Route m pat _ =>
      bool_decide (req_method req = m)
      && bool_decide (is_Some (match_path pat (req_path req)))
  | Use _ => false
  end.

Definition api_matches (req : request) : bool :=
  existsb (λ l, layer_matches l req) (api_routes 0 0).

(** ** Sequences of store operations *)

Inductive op :=
| OpList
| OpCreate (t_id t_ts : Z) (payload : value)
| OpUpdate (postId : string) (payload : value)
| OpDelete (postId : string).

Definition exec (o : op) : M response :=
  match o with
  | OpList => get_posts_handler
  | OpCreate t_id t_ts payload => post_handler t_id t_ts payload
  | OpUpdate postId payload => put_handler postId payload
  | OpDelete postId => delete_handler postId
  end.

Fixpoint exec_all (os : list op) (s : state) : state :=
  match os with
  | [] => s
  | o :: os' => exec_all os' (state_after (exec o) s)
  end.

(** An operation leaves a record alone unless it is an update or a
    delete addressed to the record's id. *)
Definition leaves_alone (r : post) (o : op) : Prop :=
  match o with
  | OpUpdate postId _ | OpDelete postId => r !! "id" ≠ Some (VStr postId)
  | OpList | OpCreate _ _ _ => True
  end.

(** The field names of a post (those of the seed records). *)
Definition schema : list string :=
  ["id"; "title"; "snippet"; "fullContent"; "author"; "date"; "timestamp"; "images"].

(** The ids held by a collection, in order ([None]: a record without an
    [id] field). *)
Definition ids (l : list post) : list (option value) := (λ p, p !! "id") <$> l.

(** ** Settings derived from the mode (lines 26 and 57-62) *)

Record cors_options := mkCors {
  origin : string;
  methods : list method;
  allowedHeaders : list string;
  credentials : bool
}.

Definition corsOptions (env_NODE_ENV : option string) : cors_options :=
  mkCors (if production env_NODE_ENV
          then "https://your-angular-app-domain.com" else "*")
         [GET; POST; PUT; DELETE]
         ["Content-Type"; "Authorization"]
         true.

(** The [level] option given to [winston.createLogger]. *)
Definition logger_level (env_NODE_ENV : option string) : string :=
  if production env_NODE_ENV then "info" else "debug".

(** The method a layer of the stack is registered for. *)
Definition layer_method (l : layer) : option method :=
  match l with
  | Route m _ _ => Some m
  | Use _ => None
  end.

(** ** Checks on concrete requests *)

Example create_scenario :
  result_of (post_handler 1700000000000 1700000000001
               (VObj {[ "title" := VStr "T" ]})) init
  = json 201 (VObj {[ "id" := VStr "post_1700000000000";
                       "timestamp" := VNum 1700000000001;
                       "title" := VStr "T" ]}).
Proof. vm_compute. reflexivity. Qed.

Example update_scenario :
  result_of (handle None (λ _, None) (inl "") 0 0
     (mkRequest PUT ["api"; "posts"; "post_1678886400000"]
        (VObj {[ "title" := VStr "Edited" ]}))) init
  = Some (json 200 (VObj (<["title" := VStr "Edited"]> seed1))).
Proof. vm_compute. reflexivity. Qed.

Example delete_scenario :
  (handle None (λ _, None) (inl "") 0 0
     (mkRequest DELETE ["API"; "posts"; "nonexistent"] VNull)) init
  = (Some not_found,
     mkState [seed1; seed2]
       [(Warn, "DELETE /api/posts/nonexistent - Post not found.")]).
Proof. vm_compute. reflexivity. Qed.

Example deep_link_scenario :
  result_of (handle (Some "production") (λ _, None) (inl "<html>") 0 0
     (mkRequest GET ["some"; "deep"; "link"] VNull)) init
  = Some (mkResponse (VNum 200) (BFile "<html>")).
Proof. vm_compute. reflexivity. Qed.

(** ** Running the monad *)

Lemma bind_run {A B} (m : M A) (f : A → M B) (s : state) :
  (m ≫= f) s = f (m s).1 (m s).2.
Proof. unfold mbind, M_bind. by destruct (m s). Qed.

Lemma id_is_true (postId : string) (p : post) :
  id_is postId p = true ↔ p !! "id" = Some (VStr postId).
Proof.
  unfold id_is. split.
  - destruct (p !! "id") as [[]|]; try discriminate.
    intros H%bool_decide_eq_true. by subst.
  - intros ->. by apply bool_decide_eq_true.
Qed.

Lemma id_is_false (postId : string) (p : post) :
  id_is postId p = false ↔ p !! "id" ≠ Some (VStr postId).
Proof.
  rewrite <- id_is_true. destruct (id_is postId p); split; congruence.
Qed.

(** ** Object literals *)

Lemma newPost_lookup (t_id t_ts : Z) (payload : value) (k : string) :
  newPost t_id t_ts payload !! k =
    match own_props payload !! k with
    | Some v => Some v
    | None =>
        if decide (k = "timestamp") then Some (VNum t_ts)
        else if decide (k = "id") then Some (VStr ("post_" +:+ pretty t_id))
        else None
    end.
Proof.
  unfold newPost, obj_spread, obj_set. rewrite lookup_union.
  destruct (own_props payload !! k) as [v|]; [by rewrite union_Some_l|].
  rewrite (left_id None _).
  rewrite lookup_insert. repeat case_decide; subst; try done.
  by rewrite lookup_insert_ne.
Qed.

Lemma merged_lookup (old : post) (payload : value) (postId k : string) :
  merged old payload postId !! k =
    if decide (k = "id") then Some (VStr postId)
    else match own_props payload !! k with
         | Some v => Some v
         | None => old !! k
         end.
Proof.
  unfold merged, obj_spread, obj_set. rewrite lookup_insert.
  repeat case_decide; try congruence.
  rewrite !lookup_union, lookup_empty.
  destruct (own_props payload !! k); [by rewrite union_Some_l|].
  rewrite (left_id None _). by destruct (old !! k).
Qed.

(** ** Create *)

Lemma post_handler_run (t_id t_ts : Z) (payload : value) (s : state) :
  post_handler t_id t_ts payload s =
    (json 201 (VObj (newPost t_id t_ts payload)),
     mkState (blogPosts s ++ [newPost t_id t_ts payload])
             (logs s ++ [(Info, "POST /api/posts - New post created:")])).
Proof. reflexivity. Qed.

Lemma post_handler_result (t_id t_ts : Z) (payload : value) (s : state) :
  result_of (post_handler t_id t_ts payload) s
  = json 201 (VObj (newPost t_id t_ts payload)).
Proof. reflexivity. Qed.

Lemma post_handler_posts (t_id t_ts : Z) (payload : value) (s : state) :
  blogPosts (state_after (post_handler t_id t_ts payload) s)
  = blogPosts s ++ [newPost t_id t_ts payload].
Proof. reflexivity. Qed.

(** C1, as stated, fails: a payload that carries its own [timestamp]
    gets a record with that timestamp, not with the generated one. *)
Lemma create_generated_fields_do_not_win :
  ¬ (∃ r : post,
       result_of (post_handler 1700000000000 1700000000000
                    (VObj {[ "timestamp" := VNum 1 ]})) init
       = json 201 (VObj r)
       ∧ r !! "id" = Some (VStr ("post_" +:+ pretty 1700000000000))
       ∧ r !! "timestamp" = Some (VNum 1700000000000)).
Proof.
  intros (r & Hr & _ & Hts).
  rewrite post_handler_result in Hr. injection Hr as <-.
  rewrite newPost_lookup in Hts. vm_compute in Hts. discriminate.
Qed.

(** C1 (amended): the record that create returns and appends is the
    payload laid over the generated fields.  It has the generated id
    when the payload has no [id] field and the generated timestamp when
    the payload has no [timestamp] field; a timestamp that the payload
    supplies is the one stored. *)
Theorem create_generated_fields_are_defaults
    (s : state) (t_id t_ts : Z) (payload : value) :
  ∃ r : post,
    result_of (post_handler t_id t_ts payload) s = json 201 (VObj r)
    ∧ blogPosts (state_after (post_handler t_id t_ts payload) s)
      = blogPosts s ++ [r]
    ∧ (own_props payload !! "id" = None →
       r !! "id" = Some (VStr ("post_" +:+ pretty t_id)))
    ∧ (own_props payload !! "timestamp" = None →
       r !! "timestamp" = Some (VNum t_ts))
    ∧ (∀ v, own_props payload !! "timestamp" = Some v →
       r !! "timestamp" = Some v).
Proof.
  exists (newPost t_id t_ts payload).
  split; [apply post_handler_result|].
  split; [apply post_handler_posts|].
  rewrite !newPost_lookup.
  repeat split.
  - by intros ->.
  - by intros ->.
  - by intros v ->.
Qed.

Lemma create_generated_fields_are_defaults_witness :
  ∃ r : post,
    result_of (post_handler 5 6 (VObj {[ "title" := VStr "T" ]})) init
    = json 201 (VObj r)
    ∧ r !! "id" = Some (VStr "post_5")
    ∧ r !! "timestamp" = Some (VNum 6).
Proof.
  destruct (create_generated_fields_are_defaults init 5 6
              (VObj {[ "title" := VStr "T" ]}))
    as (r & Hr & _ & Hid & Hts & _).
  exists r. split; [exact Hr|].
  split; [apply Hid | apply Hts]; vm_compute; reflexivity.
Defined.

(** C2 fails on the code: two creates served within the same
    millisecond read the same clock value and get the same id, so the
    second record's id is already in the collection. *)
Theorem create_same_millisecond_collides :
  let s1 := state_after (post_handler 1700000000000 1700000000000 (VObj ∅)) init in
  ∃ r old : post,
    result_of (post_handler 1700000000000 1700000000000 (VObj ∅)) s1
    = json 201 (VObj r)
    ∧ old ∈ blogPosts s1
    ∧ r !! "id" = Some (VStr "post_1700000000000")
    ∧ old !! "id" = r !! "id".
Proof.
  intros s1.
  exists (newPost 1700000000000 1700000000000 (VObj ∅)),
         (newPost 1700000000000 1700000000000 (VObj ∅)).
  split; [reflexivity|].
  split; [unfold s1; rewrite post_handler_posts; set_solver|].
  split; [|reflexivity].
  vm_compute. reflexivity.
Qed.

(** What does hold of the generated id: it is never the empty string. *)
Lemma generated_id_nonempty (t_id : Z) : "post_" +:+ pretty t_id ≠ "".
Proof. discriminate. Qed.

(** C7, as stated, fails: created from a payload without [images], the
    record has no [images] field at all, not an empty sequence. *)
Lemma create_without_images_has_no_images :
  ¬ (∃ r : post,
       result_of (post_handler 1700000000000 1700000000000
                    (VObj {[ "title" := VStr "T" ]})) init
       = json 201 (VObj r)
       ∧ r !! "images" = Some (VArr [])).
Proof.
  intros (r & Hr & Him).
  rewrite post_handler_result in Hr. injection Hr as <-.
  rewrite newPost_lookup in Him. vm_compute in Him. discriminate.
Qed.

(** C7 (amended): create adds no default; the [images] field of the
    created record is exactly the one of the payload, stored as it came
    and absent when the payload has none. *)
Theorem create_images_from_payload
    (s : state) (t_id t_ts : Z) (payload : value) :
  ∃ r : post,
    result_of (post_handler t_id t_ts payload) s = json 201 (VObj r)
    ∧ r !! "images" = own_props payload !! "images".
Proof.
  exists (newPost t_id t_ts payload).
  split; [apply post_handler_result|].
  rewrite newPost_lookup.
  destruct (own_props payload !! "images"); [done|].
  repeat case_decide; done.
Qed.

(** ** Update *)

Lemma put_handler_found (s : state) (postId : string) (payload : value)
    (index : nat) (old : post) :
  list_find (λ p, id_is postId p) (blogPosts s) = Some (index, old) →
  put_handler postId payload s =
    (json 200 (VObj (merged old payload postId)),
     mkState (<[index := merged old payload postId]> (blogPosts s))
             (logs s ++ [(Info, "PUT /api/posts/" +:+ postId +:+ " - Post updated:")])).
Proof.
  intros Hfind. unfold put_handler. rewrite bind_run. simpl.
  rewrite Hfind. reflexivity.
Qed.

Lemma put_handler_missing (s : state) (postId : string) (payload : value) :
  list_find (λ p, id_is postId p) (blogPosts s) = None →
  put_handler postId payload s =
    (not_found,
     mkState (blogPosts s)
             (logs s ++ [(Warn, "PUT /api/posts/" +:+ postId +:+ " - Post not found.")])).
Proof.
  intros Hfind. unfold put_handler. rewrite bind_run. simpl.
  rewrite Hfind. reflexivity.
Qed.

(** [findIndex] finds the first record with the id as soon as one exists. *)
Lemma find_existing (l : list post) (postId : string) :
  (∃ p, p ∈ l ∧ p !! "id" = Some (VStr postId)) →
  ∃ index old,
    list_find (λ p, id_is postId p) l = Some (index, old)
    ∧ l !! index = Some old
    ∧ old !! "id" = Some (VStr postId)
    ∧ (∀ j y, l !! j = Some y → (j < index)%nat → y !! "id" ≠ Some (VStr postId)).
Proof.
  intros (p & Hin & Hid).
  destruct (list_find (λ p, id_is postId p) l) as [[index old]|] eqn:Hfind.
  - exists index, old. split; [done|].
    apply list_find_Some in Hfind as (Hl & Hold & Hfirst).
    split; [done|]. split.
    + apply id_is_true. by apply Is_true_true.
    + intros j y Hj Hlt Hy. apply (Hfirst j y Hj Hlt).
      apply Is_true_true. by apply id_is_true.
  - exfalso. apply list_find_None in Hfind.
    rewrite Forall_forall in Hfind. apply (Hfind p Hin).
    apply Is_true_true. by apply id_is_true.
Qed.

(** C3, as stated, fails: a [timestamp] in the update payload replaces
    the stored one. *)
Lemma update_overwrites_timestamp :
  ¬ (∃ r : post,
       result_of (put_handler "post_1678886400000"
                    (VObj {[ "timestamp" := VNum 0 ]})) init
       = json 200 (VObj r)
       ∧ r !! "id" = seed1 !! "id"
       ∧ r !! "timestamp" = seed1 !! "timestamp").
Proof.
  intros (r & Hr & _ & Hts).
  vm_compute in Hr. injection Hr as <-.
  vm_compute in Hts. discriminate.
Qed.

(** C3 (amended): an update of an existing record never changes its id,
    whatever the payload holds; it keeps the stored timestamp when the
    payload has no [timestamp] field, and stores the payload's timestamp
    when it has one. *)
Theorem update_pins_id_keeps_unsent_timestamp
    (s : state) (postId : string) (payload : value) :
  (∃ p, p ∈ blogPosts s ∧ p !! "id" = Some (VStr postId)) →
  ∃ (index : nat) (old r : post),
    blogPosts s !! index = Some old
    ∧ old !! "id" = Some (VStr postId)
    ∧ result_of (put_handler postId payload) s = json 200 (VObj r)
    ∧ blogPosts (state_after (put_handler postId payload) s) !! index = Some r
    ∧ r !! "id" = old !! "id"
    ∧ (own_props payload !! "timestamp" = None →
       r !! "timestamp" = old !! "timestamp")
    ∧ (∀ v, own_props payload !! "timestamp" = Some v →
       r !! "timestamp" = Some v).
Proof.
  intros Hex.
  destruct (find_existing _ _ Hex) as (index & old & Hfind & Hl & Hid & _).
  exists index, old, (merged old payload postId).
  unfold result_of, state_after.
  rewrite (put_handler_found _ _ _ _ _ Hfind). simpl.
  split; [done|]. split; [done|]. split; [done|]. split.
  { apply list_lookup_insert_eq. by eapply lookup_lt_Some. }
  rewrite !merged_lookup. simpl.
  split; [by rewrite Hid|]. split.
  - by intros ->.
  - by intros v ->.
Qed.

Lemma update_pins_id_keeps_unsent_timestamp_witness :
  ∃ (index : nat) (old r : post),
    blogPosts init !! index = Some old
    ∧ result_of (put_handler "post_1678972800000"
                   (VObj {[ "id" := VStr "other" ]})) init
      = json 200 (VObj r)
    ∧ r !! "id" = old !! "id"
    ∧ r !! "timestamp" = old !! "timestamp".
Proof.
  destruct (update_pins_id_keeps_unsent_timestamp init "post_1678972800000"
              (VObj {[ "id" := VStr "other" ]}))
    as (index & old & r & Hl & _ & Hr & _ & Hid & Hts & _).
  { exists seed2. split; [set_solver | vm_compute; reflexivity]. }
  exists index, old, r.
  split; [exact Hl|]. split; [exact Hr|]. split; [exact Hid|].
  apply Hts. vm_compute. reflexivity.
Defined.

(** C4: for an existing id X, update returns (and stores in place of
    the first record with that id) a record whose id is X whatever the
    payload says; when the payload has no [id] field every field of the
    payload is applied, and every field absent from the payload keeps
    its stored value. *)
Theorem update_shallow_merge
    (s : state) (X : string) (P : value) :
  (∃ p, p ∈ blogPosts s ∧ p !! "id" = Some (VStr X)) →
  ∃ (index : nat) (old r : post),
    blogPosts s !! index = Some old
    ∧ old !! "id" = Some (VStr X)
    ∧ (∀ j y, blogPosts s !! j = Some y → (j < index)%nat →
         y !! "id" ≠ Some (VStr X))
    ∧ result_of (put_handler X P) s = json 200 (VObj r)
    ∧ blogPosts (state_after (put_handler X P) s) = <[index := r]> (blogPosts s)
    ∧ r !! "id" = Some (VStr X)
    ∧ (own_props P !! "id" = None →
       ∀ k v, own_props P !! k = Some v → r !! k = Some v)
    ∧ (∀ k, own_props P !! k = None → r !! k = old !! k).
Proof.
  intros Hex.
  destruct (find_existing _ _ Hex) as (index & old & Hfind & Hl & Hid & Hfirst).
  exists index, old, (merged old P X).
  unfold result_of, state_after.
  rewrite (put_handler_found _ _ _ _ _ Hfind). simpl.
  do 5 (split; [done|]).
  split; [by rewrite merged_lookup|]. split.
  - intros Hnoid k v Hk. rewrite merged_lookup.
    case_decide; [congruence|]. by rewrite Hk.
  - intros k Hk. rewrite merged_lookup, Hk.
    case_decide; [by subst|done].
Qed.

Lemma update_shallow_merge_witness :
  ∃ r : post,
    result_of (put_handler "post_1678886400000"
                 (VObj {[ "title" := VStr "Edited" ]})) init
    = json 200 (VObj r)
    ∧ r !! "id" = Some (VStr "post_1678886400000")
    ∧ r !! "title" = Some (VStr "Edited")
    ∧ r !! "author" = Some (VStr "Sourabh Madane").
Proof.
  destruct (update_shallow_merge init "post_1678886400000"
              (VObj {[ "title" := VStr "Edited" ]}))
    as (index & old & r & Hl & _ & Hfirst & Hr & _ & Hid & Hin & Hout).
  { exists seed1. split; [set_solver | vm_compute; reflexivity]. }
  exists r. split; [exact Hr|]. split; [exact Hid|]. split.
  - apply Hin; vm_compute; reflexivity.
  - rewrite Hout by (vm_compute; reflexivity).
    destruct index as [|[|index]]; simpl in Hl.
    + injection Hl as <-. vm_compute. reflexivity.
    + exfalso. apply (Hfirst 0%nat seed1); [reflexivity | lia |].
      vm_compute. reflexivity.
    + discriminate.
Defined.

(** C5: an update whose target id matches no record leaves the
    collection as it was and answers 404 with the message
    "Post not found". *)
Theorem update_missing_is_not_found
    (s : state) (postId : string) (payload : value) :
  (∀ p, p ∈ blogPosts s → p !! "id" ≠ Some (VStr postId)) →
  result_of (put_handler postId payload) s
  = mkResponse (VNum 404) (BJson (VObj {[ "message" := VStr "Post not found" ]}))
  ∧ blogPosts (state_after (put_handler postId payload) s) = blogPosts s.
Proof.
  intros Hnone.
  assert (list_find (λ p, id_is postId p) (blogPosts s) = None) as Hfind.
  { apply list_find_None, Forall_forall. intros p Hin Hp.
    apply (Hnone p Hin). apply id_is_true. by apply Is_true_true. }
  unfold result_of, state_after.
  rewrite (put_handler_missing _ _ _ Hfind). done.
Qed.

Lemma update_missing_is_not_found_witness :
  result_of (put_handler "nonexistent" (VObj {[ "title" := VStr "x" ]})) init
  = mkResponse (VNum 404) (BJson (VObj {[ "message" := VStr "Post not found" ]}))
  ∧ blogPosts (state_after (put_handler "nonexistent"
                              (VObj {[ "title" := VStr "x" ]})) init)
    = [seed1; seed2].
Proof.
  apply (update_missing_is_not_found init "nonexistent").
  intros p Hin. simpl in Hin.
  apply elem_of_cons in Hin as [->|Hin];
    [|apply elem_of_cons in Hin as [->|Hin]; [|by apply elem_of_nil in Hin]];
    vm_compute; discriminate.
Defined.

(** ** Delete *)

Lemma delete_handler_run (s : state) (postId : string) :
  delete_handler postId s =
    let l' := filter (λ p, ¬ id_is postId p) (blogPosts s) in
    if (length l' <? length (blogPosts s))%nat then
      (mkResponse (VNum 204) BEmpty,
       mkState l' (logs s ++ [(Info, "DELETE /api/posts/" +:+ postId +:+ " - Post deleted.")]))
    else
      (not_found,
       mkState l' (logs s ++ [(Warn, "DELETE /api/posts/" +:+ postId +:+ " - Post not found.")])).
Proof.
  unfold delete_handler. rewrite bind_run. simpl.
  by destruct (_ <? _)%nat.
Qed.

Lemma delete_handler_posts (s : state) (postId : string) :
  blogPosts (state_after (delete_handler postId) s)
  = filter (λ p, ¬ id_is postId p) (blogPosts s).
Proof.
  unfold state_after. rewrite delete_handler_run. simpl.
  by destruct (_ <? _)%nat.
Qed.

Lemma keeps_iff (postId : string) (p : post) :
  ¬ id_is postId p ↔ p !! "id" ≠ Some (VStr postId).
Proof.
  rewrite <- id_is_false. destruct (id_is postId p); simpl.
  - split; [intros H; by destruct H | discriminate].
  - split; [done | intros _ []].
Qed.

Lemma filter_all {A} (P : A → Prop) `{∀ x, Decision (P x)} (l : list A) :
  (∀ x, x ∈ l → P x) → filter P l = l.
Proof.
  induction l as [|x l IH]; intros Hall; [done|].
  rewrite filter_cons_True by (apply Hall; left).
  f_equal. apply IH. intros y Hy. apply Hall. by right.
Qed.

(** C6, as stated, fails: after two creates in the same millisecond two
    records share an id, and deleting that id removes both. *)
Lemma delete_shared_id_removes_two :
  let s2 := state_after (post_handler 1700000000000 1700000000000 (VObj ∅))
              (state_after (post_handler 1700000000000 1700000000000 (VObj ∅))
                 init) in
  ¬ ((∃ p, p ∈ blogPosts s2 ∧ p !! "id" = Some (VStr "post_1700000000000")) →
     (length (blogPosts (state_after (delete_handler "post_1700000000000") s2)) + 1
      = length (blogPosts s2))%nat).
Proof.
  intros s2 H.
  assert (∃ p, p ∈ blogPosts s2 ∧ p !! "id" = Some (VStr "post_1700000000000"))
    as Hex.
  { exists (newPost 1700000000000 1700000000000 (VObj ∅)).
    split; [unfold s2; rewrite post_handler_posts; set_solver|].
    vm_compute. reflexivity. }
  specialize (H Hex). vm_compute in H. discriminate.
Qed.

(** C6 (amended): delete removes every record whose id is the target
    and no other, keeping the order of the rest.  If some record
    matches, the collection shrinks and the answer is 204 with no body;
    if exactly one record matches, exactly that record is removed and
    the collection shrinks by one; if none matches, the collection is
    unchanged and the answer is 404 with the message "Post not found". *)
Theorem delete_removes_every_match (s : state) (postId : string) :
  let l := blogPosts s in
  let l' := blogPosts (state_after (delete_handler postId) s) in
  let resp := result_of (delete_handler postId) s in
  (∀ p, p ∈ l' ↔ p ∈ l ∧ p !! "id" ≠ Some (VStr postId))
  ∧ l' `sublist_of` l
  ∧ ((∃ p, p ∈ l ∧ p !! "id" = Some (VStr postId)) →
     (length l' < length l)%nat ∧ resp = mkResponse (VNum 204) BEmpty)
  ∧ (∀ l1 p l2,
       l = l1 ++ p :: l2 →
       p !! "id" = Some (VStr postId) →
       (∀ q, q ∈ l1 ++ l2 → q !! "id" ≠ Some (VStr postId)) →
       l' = l1 ++ l2 ∧ (length l' + 1 = length l)%nat)
  ∧ ((∀ p, p ∈ l → p !! "id" ≠ Some (VStr postId)) →
     l' = l
     ∧ resp = mkResponse (VNum 404)
                (BJson (VObj {[ "message" := VStr "Post not found" ]}))).
Proof.
  intros l l' resp. subst l'. rewrite delete_handler_posts. fold l.
  split.
  { intros p. rewrite list_elem_of_filter, keeps_iff. tauto. }
  split; [apply sublist_filter|].
  split.
  { intros (p & Hin & Hid).
    assert (length (filter (λ p, ¬ id_is postId p) l) < length l)%nat as Hlt.
    { apply (length_filter_lt _ _ p Hin). rewrite keeps_iff. tauto. }
    split; [done|].
    subst resp. unfold result_of. rewrite delete_handler_run. simpl. fold l.
    apply Nat.ltb_lt in Hlt. by rewrite Hlt. }
  split.
  { intros l1 p l2 -> Hid Hrest.
    assert (filter (λ p, ¬ id_is postId p) (l1 ++ p :: l2) = l1 ++ l2) as ->.
    { rewrite filter_app, filter_cons_False by (rewrite keeps_iff; tauto).
      rewrite !filter_all; [done| |];
        intros q Hq; apply keeps_iff, Hrest, elem_of_app; tauto. }
    split; [done|]. rewrite !length_app. simpl. lia. }
  intros Hnone.
  assert (filter (λ p, ¬ id_is postId p) l = l) as Heq.
  { apply filter_all. intros p Hin. by apply keeps_iff, Hnone. }
  split; [done|].
  subst resp. unfold result_of. rewrite delete_handler_run. simpl. fold l.
  rewrite Heq. by rewrite Nat.ltb_irrefl.
Qed.

Lemma delete_removes_every_match_witness :
  blogPosts (state_after (delete_handler "post_1678886400000") init) = [seed2]
  ∧ result_of (delete_handler "post_1678886400000") init
    = mkResponse (VNum 204) BEmpty
  ∧ blogPosts (state_after (delete_handler "nonexistent") init) = [seed1; seed2]
  ∧ result_of (delete_handler "nonexistent") init
    = mkResponse (VNum 404)
        (BJson (VObj {[ "message" := VStr "Post not found" ]})).
Proof.
  destruct (delete_removes_every_match init "post_1678886400000")
    as (_ & _ & Hsome & Hone & _).
  destruct (delete_removes_every_match init "nonexistent")
    as (_ & _ & _ & _ & Hnone).
  split.
  { apply (Hone [] seed1 [seed2]); [reflexivity | vm_compute; reflexivity |].
    intros q Hq. simpl in Hq. apply list_elem_of_singleton in Hq as ->.
    vm_compute. discriminate. }
  split.
  { apply Hsome. exists seed1. split; [left | vm_compute; reflexivity]. }
  apply Hnone. intros p Hin. simpl in Hin.
  apply elem_of_cons in Hin as [->|Hin];
    [|apply list_elem_of_singleton in Hin as ->];
    vm_compute; discriminate.
Defined.

(** ** The error middleware *)

Lemma error_middleware_result (env : option string) (err : js_error) (s : state) :
  result_of (error_middleware env err) s
  = mkResponse (js_or (err_status err) (VNum 500))
      (BJson (VObj {[ "message" := VStr (error_message);
                      "error" := error_details env err ]})).
Proof. reflexivity. Qed.

Lemma error_field_inj (e1 e2 : value) :
  BJson (VObj {[ "message" := VStr error_message; "error" := e1 ]})
  = BJson (VObj {[ "message" := VStr error_message; "error" := e2 ]}) →
  e1 = e2.
Proof.
  intros H. apply (f_equal error_field) in H. simpl in H.
  rewrite !lookup_insert_ne, !lookup_singleton_eq in H by done.
  congruence.
Qed.

(** C8, as stated, fails: with [NODE_ENV=test] the mode is not
    production, yet the [error] field is the empty object and not the
    error's details. *)
Lemma error_details_withheld_outside_development :
  let err := mkError "Not Found" (Some (VNum 404)) {[ "status" := VNum 404 ]} in
  let r := result_of (error_middleware (Some "test") err) init in
  ¬ (∃ e : value,
       body r = BJson (VObj {[ "message" :=
                  VStr "An unexpected error occurred. Please try again later.";
                  "error" := e ]})
       ∧ (production (Some "test") = false → e = VObj (err_enumerable err))
       ∧ (production (Some "test") = true → e = VObj ∅)
       ∧ status r = VNum 404).
Proof.
  intros err r (e & Hbody & Hdetails & _).
  subst r. rewrite error_middleware_result in Hbody. simpl in Hbody.
  apply error_field_inj in Hbody.
  rewrite (Hdetails eq_refl) in Hbody.
  apply (f_equal (λ v, match v with VObj m => m !! "status" | _ => None end))
    in Hbody.
  vm_compute in Hbody. discriminate.
Qed.

(** C8 (amended): the body of every answer of the error middleware is
    an object whose [message] is the fixed text and whose [error] field
    is the error's details exactly when the runtime mode is
    "development" (the mode of an unset [NODE_ENV]); in every other
    mode, production included, it is the empty object.  The status is
    the error's [status] when that is set and truthy, and 500 otherwise. *)
Theorem error_response_contract
    (env : option string) (err : js_error) (s : state) :
  let r := result_of (error_middleware env err) s in
  ∃ e : value,
    body r = BJson (VObj {[ "message" :=
               VStr "An unexpected error occurred. Please try again later.";
               "error" := e ]})
    ∧ (NODE_ENV env = "development" → e = VObj (err_enumerable err))
    ∧ (NODE_ENV env ≠ "development" → e = VObj ∅)
    ∧ (production env = true → e = VObj ∅)
    ∧ (env = None → e = VObj (err_enumerable err))
    ∧ (∀ v, err_status err = Some v → truthy v = true → status r = v)
    ∧ (∀ v, err_status err = Some v → truthy v = false → status r = VNum 500)
    ∧ (err_status err = None → status r = VNum 500).
Proof.
  intros r. subst r. rewrite error_middleware_result. simpl.
  exists (error_details env err).
  split; [done|].
  unfold error_details, production.
  split; [by intros ->|].
  split; [by intros ->%String.eqb_neq|].
  split; [by intros ->%String.eqb_eq|].
  split; [by intros ->|].
  unfold js_or.
  split; [by intros v -> ->|].
  split; [by intros v -> ->|].
  by intros ->.
Qed.

Lemma error_response_contract_witness :
  let err := mkError "Not Found" (Some (VNum 404)) {[ "status" := VNum 404 ]} in
  status (result_of (error_middleware (Some "production") err) init) = VNum 404
  ∧ status (result_of (error_middleware None (mkError "boom" None ∅)) init)
    = VNum 500
  ∧ body (result_of (error_middleware None err) init)
    = BJson (VObj {[ "message" :=
               VStr "An unexpected error occurred. Please try again later.";
               "error" := VObj {[ "status" := VNum 404 ]} ]}).
Proof.
  intros err.
  destruct (error_response_contract (Some "production") err init)
    as (_ & _ & _ & _ & _ & _ & Hset & _).
  destruct (error_response_contract None (mkError "boom" None ∅) init)
    as (_ & _ & _ & _ & _ & _ & _ & _ & Hunset).
  destruct (error_response_contract None err init)
    as (e & Hbody & Hdev & _).
  split; [by apply (Hset (VNum 404))|].
  split; [by apply Hunset|].
  rewrite Hbody, (Hdev eq_refl). reflexivity.
Defined.

(** ** Routing *)

Lemma run_app (l1 l2 : list layer) (req : request) (s : state) :
  run (l1 ++ l2) req s =
    match run l1 req s with
    | (Some r, s') => (Some r, s')
    | (None, s') => run l2 req s'
    end.
Proof.
  revert s. induction l1 as [|[m pat h|mw] l1 IH]; intros s; simpl.
  - reflexivity.
  - case_bool_decide; [|apply IH].
    destruct (match_path pat (req_path req)); [|apply IH].
    rewrite !bind_run. reflexivity.
  - rewrite !bind_run. destruct (mw req s) as [[r|] s']; simpl; [done|apply IH].
Qed.

Lemma api_routes_unmatched (t_id t_ts : Z) (req : request) (s : state) :
  api_matches req = false →
  run (api_routes t_id t_ts) req s = (None, s).
Proof.
  unfold api_matches, api_routes. cbn [existsb layer_matches run].
  destruct (match_path posts_path (req_path req));
    destruct (match_path posts_id_path (req_path req));
    destruct (req_method req);
    simpl; (discriminate || reflexivity).
Qed.

Lemma api_routes_matched (t_id t_ts : Z) (req : request) (s : state) :
  api_matches req = true →
  ∃ r s', run (api_routes t_id t_ts) req s = (Some r, s').
Proof.
  unfold api_matches, api_routes. cbn [existsb layer_matches run].
  destruct (match_path posts_path (req_path req));
    destruct (match_path posts_id_path (req_path req));
    destruct (req_method req);
    simpl; try discriminate; intros _; rewrite bind_run; eauto.
Qed.

(** C9: in production mode a GET request that no API route and no
    static file matches is answered with status 200 and the index
    document (when [sendFile] finds it); outside production that request
    is answered by no layer of the application.  The fallback comes
    after the API routes in the stack: a request that an API route
    matches gets that route's answer, whatever the mode, the static
    files and the index document are. *)
Theorem production_index_fallback
    (env : option string) (static_file : list string → option string)
    (index_html : string + js_error) (t_id t_ts : Z)
    (req : request) (s : state) :
  (production env = true →
   req_method req = GET →
   api_matches req = false →
   static_file (req_path req) = None →
   ∀ content, index_html = inl content →
   handle env static_file index_html t_id t_ts req s
   = (Some (mkResponse (VNum 200) (BFile content)), s))
  ∧ (production env = false →
     api_matches req = false →
     handle env static_file index_html t_id t_ts req s = (None, s))
  ∧ (api_matches req = true →
     handle env static_file index_html t_id t_ts req s
     = run (api_routes t_id t_ts) req s
     ∧ is_Some (fst (run (api_routes t_id t_ts) req s))).
Proof.
  unfold handle, app. rewrite run_app.
  split; [|split].
  - intros -> Hget Hapi Hstatic content ->.
    rewrite (api_routes_unmatched _ _ _ _ Hapi).
    unfold production_routes, static_middleware, index_handler. simpl.
    rewrite Hget, Hstatic. reflexivity.
  - intros -> Hapi.
    rewrite (api_routes_unmatched _ _ _ _ Hapi). reflexivity.
  - intros Hapi.
    destruct (api_routes_matched t_id t_ts req s Hapi) as (r & s' & ->).
    simpl. eauto.
Qed.

Lemma production_index_fallback_witness :
  handle (Some "production") (λ _, None) (inl "<app-root>") 0 0
    (mkRequest GET ["some"; "deep"; "link"] VNull) init
  = (Some (mkResponse (VNum 200) (BFile "<app-root>")), init)
  ∧ handle None (λ _, None) (inl "<app-root>") 0 0
      (mkRequest GET ["some"; "deep"; "link"] VNull) init
    = (None, init)
  ∧ handle (Some "production") (λ _, Some "shadow") (inl "<app-root>") 0 0
      (mkRequest GET ["api"; "posts"] VNull) init
    = run (api_routes 0 0) (mkRequest GET ["api"; "posts"] VNull) init.
Proof.
  destruct (production_index_fallback (Some "production") (λ _, None)
              (inl "<app-root>") 0 0
              (mkRequest GET ["some"; "deep"; "link"] VNull) init)
    as (Hprod & _ & _).
  destruct (production_index_fallback None (λ _, None)
              (inl "<app-root>") 0 0
              (mkRequest GET ["some"; "deep"; "link"] VNull) init)
    as (_ & Hdev & _).
  destruct (production_index_fallback (Some "production") (λ _, Some "shadow")
              (inl "<app-root>") 0 0
              (mkRequest GET ["api"; "posts"] VNull) init)
    as (_ & _ & Hapi).
  split; [|split].
  - apply Hprod; reflexivity.
  - apply Hdev; reflexivity.
  - apply Hapi. reflexivity.
Defined.

(** ** Histories *)

Lemma get_posts_handler_result (s : state) :
  result_of get_posts_handler s = json 200 (VArr (VObj <$> blogPosts s)).
Proof. reflexivity. Qed.

Lemma put_handler_keeps_others (s : state) (postId : string) (payload : value)
    (r : post) :
  r !! "id" ≠ Some (VStr postId) →
  r ∈ blogPosts s →
  r ∈ blogPosts (state_after (put_handler postId payload) s).
Proof.
  intros Hid Hin. unfold state_after.
  destruct (list_find (λ p, id_is postId p) (blogPosts s))
    as [[index old]|] eqn:Hfind.
  - rewrite (put_handler_found _ _ _ _ _ Hfind). simpl.
    apply list_find_Some in Hfind as (Hl & Hold & _).
    apply list_elem_of_lookup in Hin as [j Hj].
    apply list_elem_of_lookup. exists j.
    rewrite list_lookup_insert_ne; [done|].
    intros <-. apply Hid, id_is_true. apply Is_true_true. congruence.
  - by rewrite (put_handler_missing _ _ _ Hfind).
Qed.

Lemma exec_keeps (o : op) (s : state) (r : post) :
  leaves_alone r o →
  r ∈ blogPosts s →
  r ∈ blogPosts (state_after (exec o) s).
Proof.
  destruct o as [|t_id t_ts payload|postId payload|postId];
    cbn [exec leaves_alone]; intros Hok Hin.
  - exact Hin.
  - rewrite post_handler_posts. apply elem_of_app. by left.
  - by apply put_handler_keeps_others.
  - rewrite delete_handler_posts. apply list_elem_of_filter.
    split; [by apply keeps_iff | done].
Qed.

Lemma exec_all_keeps (os : list op) (s : state) (r : post) :
  Forall (leaves_alone r) os →
  r ∈ blogPosts s →
  r ∈ blogPosts (exec_all os s).
Proof.
  intros Hos. revert s.
  induction Hos as [|o os Ho _ IH]; intros s Hin; simpl; [done|].
  by apply IH, exec_keeps.
Qed.

(** C10: create merges the payload as it is.  A payload key outside the
    post schema is stored with its value in the new record, which create
    returns and which every later list returns, for as long as no update
    or delete addressed to the record's id comes in between. *)
Theorem create_keeps_unknown_keys
    (s : state) (t_id t_ts : Z) (payload : value) (k : string) (v : value)
    (os : list op) :
  let r := newPost t_id t_ts payload in
  k ∉ schema →
  own_props payload !! k = Some v →
  Forall (leaves_alone r) os →
  r !! k = Some v
  ∧ result_of (post_handler t_id t_ts payload) s = json 201 (VObj r)
  ∧ ∃ l : list post,
      result_of get_posts_handler
        (exec_all os (state_after (post_handler t_id t_ts payload) s))
      = json 200 (VArr (VObj <$> l))
      ∧ r ∈ l.
Proof.
  intros r _ Hk Hos.
  split; [subst r; by rewrite newPost_lookup, Hk|].
  split; [apply post_handler_result|].
  eexists. split; [apply get_posts_handler_result|].
  apply exec_all_keeps; [done|].
  rewrite post_handler_posts. apply elem_of_app. right. by left.
Qed.

Lemma create_keeps_unknown_keys_witness :
  let payload := VObj {[ "title" := VStr "T"; "likes" := VNum 3 ]} in
  let r := newPost 7 8 payload in
  r !! "likes" = Some (VNum 3)
  ∧ ∃ l : list post,
      result_of get_posts_handler
        (exec_all [OpCreate 9 9 VNull; OpDelete "post_1678886400000"; OpList]
           (state_after (post_handler 7 8 payload) init))
      = json 200 (VArr (VObj <$> l))
      ∧ r ∈ l.
Proof.
  intros payload r.
  destruct (create_keeps_unknown_keys init 7 8 payload "likes" (VNum 3)
              [OpCreate 9 9 VNull; OpDelete "post_1678886400000"; OpList])
    as (Hr & _ & Hl).
  - unfold schema. intros Hin.
    repeat (apply elem_of_cons in Hin as [Hin|Hin]; [discriminate|]).
    by apply elem_of_nil in Hin.
  - vm_compute. reflexivity.
  - repeat constructor. simpl. vm_compute. discriminate.
  - split; [exact Hr | exact Hl].
Defined.

(** ** Further properties of update *)

Lemma merged_id (old : post) (payload : value) (postId : string) :
  merged old payload postId !! "id" = Some (VStr postId).
Proof. by rewrite merged_lookup. Qed.

Lemma merged_twice (old : post) (payload : value) (postId : string) :
  merged (merged old payload postId) payload postId = merged old payload postId.
Proof.
  apply map_eq. intros k. rewrite !merged_lookup.
  case_decide; [done|]. by destruct (own_props payload !! k).
Qed.

Lemma merged_nothing (old : post) (payload : value) (postId : string) :
  own_props payload = ∅ →
  old !! "id" = Some (VStr postId) →
  merged old payload postId = old.
Proof.
  intros Hempty Hid. apply map_eq. intros k. rewrite merged_lookup, Hempty.
  rewrite lookup_empty. case_decide; [by subst|done].
Qed.

Lemma find_holds (l : list post) (postId : string) (index : nat) (old : post) :
  list_find (λ p, id_is postId p) l = Some (index, old) →
  l !! index = Some old ∧ old !! "id" = Some (VStr postId).
Proof.
  intros (Hl & Hold & _)%list_find_Some. split; [done|].
  apply id_is_true. by apply Is_true_true.
Qed.

Lemma put_handler_ids (s : state) (postId : string) (payload : value) :
  ids (blogPosts (state_after (put_handler postId payload) s))
  = ids (blogPosts s).
Proof.
  unfold state_after.
  destruct (list_find (λ p, id_is postId p) (blogPosts s))
    as [[index old]|] eqn:Hfind.
  - rewrite (put_handler_found _ _ _ _ _ Hfind). simpl.
    destruct (find_holds _ _ _ _ Hfind) as [Hl Hid].
    unfold ids. rewrite list_fmap_insert. apply list_insert_id.
    rewrite list_lookup_fmap, Hl. simpl. by rewrite merged_id, Hid.
  - by rewrite (put_handler_missing _ _ _ Hfind).
Qed.

Lemma put_handler_length (s : state) (postId : string) (payload : value) :
  length (blogPosts (state_after (put_handler postId payload) s))
  = length (blogPosts s).
Proof.
  pose proof (put_handler_ids s postId payload) as H.
  apply (f_equal length) in H. unfold ids in H.
  by rewrite !length_fmap in H.
Qed.


Lemma find_after_update (l : list post) (postId : string) (payload : value)
    (index : nat) (old : post) :
  list_find (λ p, id_is postId p) l = Some (index, old) →
  list_find (λ p, id_is postId p) (<[index := merged old payload postId]> l)
  = Some (index, merged old payload postId).
Proof.
  intros Hfind. apply list_find_Some in Hfind as (Hl & Hold & Hfirst).
  apply list_find_Some. split; [|split].
  - apply list_lookup_insert_eq. by eapply lookup_lt_Some.
  - apply Is_true_true, id_is_true, merged_id.
  - intros j y Hj Hlt. apply (Hfirst j y); [|done].
    rewrite list_lookup_insert_ne in Hj by lia. done.
Qed.

(** Update is idempotent: sending the same update a second time gives
    the same answer and leaves the collection as the first one made it. *)
Theorem update_idempotent (s : state) (postId : string) (payload : value) :
  let s1 := state_after (put_handler postId payload) s in
  result_of (put_handler postId payload) s1
  = result_of (put_handler postId payload) s
  ∧ blogPosts (state_after (put_handler postId payload) s1) = blogPosts s1.
Proof.
  intros s1. subst s1. unfold state_after, result_of.
  destruct (list_find (λ p, id_is postId p) (blogPosts s))
    as [[index old]|] eqn:Hfind.
  - rewrite (put_handler_found _ _ _ _ _ Hfind). simpl.
    erewrite put_handler_found
      by (simpl; apply find_after_update, Hfind).
    simpl. rewrite merged_twice. split; [done|].
    apply list_insert_insert_eq.
  - rewrite (put_handler_missing _ _ _ Hfind). simpl.
    rewrite put_handler_missing by done. done.
Qed.

(** An update whose payload has no property of its own (an empty object,
    [null], a number) never changes the collection, whether the id is
    found or not. *)
Theorem update_empty_payload_keeps_collection
    (s : state) (postId : string) (payload : value) :
  own_props payload = ∅ →
  blogPosts (state_after (put_handler postId payload) s) = blogPosts s.
Proof.
  intros Hempty. unfold state_after.
  destruct (list_find (λ p, id_is postId p) (blogPosts s))
    as [[index old]|] eqn:Hfind.
  - rewrite (put_handler_found _ _ _ _ _ Hfind). simpl.
    destruct (find_holds _ _ _ _ Hfind) as [Hl Hid].
    rewrite (merged_nothing _ _ _ Hempty Hid). by apply list_insert_id.
  - by rewrite (put_handler_missing _ _ _ Hfind).
Qed.

Lemma update_empty_payload_keeps_collection_witness :
  blogPosts (state_after (put_handler "post_1678972800000" (VObj ∅)) init)
  = [seed1; seed2].
Proof.
  apply (update_empty_payload_keeps_collection init "post_1678972800000" (VObj ∅)).
  reflexivity.
Defined.

(** ** Further properties of delete and create *)

Lemma delete_handler_result_missing (s : state) (postId : string) :
  (∀ p, p ∈ blogPosts s → p !! "id" ≠ Some (VStr postId)) →
  delete_handler postId s =
    (not_found,
     mkState (blogPosts s)
       (logs s ++ [(Warn, "DELETE /api/posts/" +:+ postId +:+ " - Post not found.")])).
Proof.
  intros Hnone. rewrite delete_handler_run. simpl.
  rewrite filter_all by (intros p Hin; by apply keeps_iff, Hnone).
  by rewrite Nat.ltb_irrefl.
Qed.

Lemma deleted_is_gone (s : state) (postId : string) (p : post) :
  p ∈ blogPosts (state_after (delete_handler postId) s) →
  p !! "id" ≠ Some (VStr postId).
Proof.
  rewrite delete_handler_posts. intros [Hp _]%list_elem_of_filter.
  by apply keeps_iff.
Qed.

(** Once an id has been deleted it is unknown to the store: a second
    delete and an update of that id both answer 404 and leave the
    collection as the first delete made it. *)
Theorem delete_then_unknown (s : state) (postId : string) (payload : value) :
  let s1 := state_after (delete_handler postId) s in
  result_of (delete_handler postId) s1 = not_found
  ∧ blogPosts (state_after (delete_handler postId) s1) = blogPosts s1
  ∧ result_of (put_handler postId payload) s1 = not_found
  ∧ blogPosts (state_after (put_handler postId payload) s1) = blogPosts s1.
Proof.
  intros s1.
  assert (∀ p, p ∈ blogPosts s1 → p !! "id" ≠ Some (VStr postId)) as Hgone.
  { intros p. apply deleted_is_gone. }
  assert (list_find (λ p, id_is postId p) (blogPosts s1) = None) as Hfind.
  { apply list_find_None, Forall_forall. intros p Hin Hp.
    apply (Hgone p Hin). apply id_is_true. by apply Is_true_true. }
  unfold result_of, state_after.
  rewrite (delete_handler_result_missing _ _ Hgone).
  rewrite (put_handler_missing _ _ _ Hfind). done.
Qed.

(** The generated id determines the clock reading it was built from:
    records created at different readings from payloads without an [id]
    field never share an id. *)
Theorem generated_ids_differ
    (t_id t_ts t_id' t_ts' : Z) (payload payload' : value) :
  own_props payload !! "id" = None →
  own_props payload' !! "id" = None →
  t_id ≠ t_id' →
  newPost t_id t_ts payload !! "id" ≠ newPost t_id' t_ts' payload' !! "id".
Proof.
  intros Hp Hp' Hne. rewrite !newPost_lookup, Hp, Hp'. simpl.
  intros [= Heq]. apply Hne. by apply (inj pretty).
Qed.

Lemma generated_ids_differ_witness :
  newPost 1700000000000 1700000000000 (VObj {[ "title" := VStr "a" ]}) !! "id"
  ≠ newPost 1700000000001 1700000000001 (VObj {[ "title" := VStr "a" ]}) !! "id".
Proof.
  apply generated_ids_differ; [reflexivity | reflexivity | lia].
Defined.

(** Creating a record under a fresh generated id and deleting that id
    again gives back the collection as it was, with a 204 answer. *)
Theorem create_then_delete_restores
    (s : state) (t_id t_ts : Z) (payload : value) :
  own_props payload !! "id" = None →
  (∀ p, p ∈ blogPosts s → p !! "id" ≠ Some (VStr ("post_" +:+ pretty t_id))) →
  let s1 := state_after (post_handler t_id t_ts payload) s in
  blogPosts (state_after (delete_handler ("post_" +:+ pretty t_id)) s1)
  = blogPosts s
  ∧ result_of (delete_handler ("post_" +:+ pretty t_id)) s1
    = mkResponse (VNum 204) BEmpty.
Proof.
  intros Hnoid Hfresh s1.
  assert (newPost t_id t_ts payload !! "id"
          = Some (VStr ("post_" +:+ pretty t_id))) as Hid.
  { by rewrite newPost_lookup, Hnoid. }
  assert (filter (λ p, ¬ id_is ("post_" +:+ pretty t_id) p) (blogPosts s1)
          = blogPosts s) as Hfilter.
  { unfold s1. rewrite post_handler_posts, filter_app.
    rewrite filter_all by (intros p Hin; by apply keeps_iff, Hfresh).
    rewrite filter_cons_False by (rewrite keeps_iff; tauto).
    by rewrite filter_nil, app_nil_r. }
  split; [by rewrite delete_handler_posts|].
  unfold result_of. rewrite delete_handler_run. cbv zeta. rewrite Hfilter.
  assert ((length (blogPosts s) <? length (blogPosts s1))%nat = true) as ->.
  { apply Nat.ltb_lt. unfold s1.
    rewrite post_handler_posts, length_app. simpl. lia. }
  done.
Qed.

Lemma create_then_delete_restores_witness :
  blogPosts (state_after (delete_handler "post_1700000000000")
               (state_after (post_handler 1700000000000 1700000000000
                               (VObj {[ "title" := VStr "T" ]})) init))
  = [seed1; seed2].
Proof.
  apply (create_then_delete_restores init 1700000000000 1700000000000
           (VObj {[ "title" := VStr "T" ]})).
  - reflexivity.
  - intros p Hin. simpl in Hin.
    apply elem_of_cons in Hin as [->|Hin];
      [|apply list_elem_of_singleton in Hin as ->];
      vm_compute; discriminate.
Defined.

(** Ids that are pairwise distinct stay so under every update and every
    delete, and under a create whose payload has no [id] field and whose
    generated id is not in the collection yet. *)
Theorem unique_ids_preserved (s : state) :
  NoDup (ids (blogPosts s)) →
  (∀ postId payload,
     NoDup (ids (blogPosts (state_after (put_handler postId payload) s))))
  ∧ (∀ postId,
       NoDup (ids (blogPosts (state_after (delete_handler postId) s))))
  ∧ (∀ t_id t_ts payload,
       own_props payload !! "id" = None →
       (∀ p, p ∈ blogPosts s →
          p !! "id" ≠ Some (VStr ("post_" +:+ pretty t_id))) →
       NoDup (ids (blogPosts (state_after (post_handler t_id t_ts payload) s)))).
Proof.
  intros Hnd. split; [|split].
  - intros postId payload.
    by rewrite put_handler_ids.
  - intros postId. rewrite delete_handler_posts.
    apply (sublist_NoDup _ (ids (blogPosts s)) Hnd).
    unfold ids. apply fmap_sublist, sublist_filter.
  - intros t_id t_ts payload Hnoid Hfresh.
    rewrite post_handler_posts. unfold ids. rewrite fmap_app. simpl.
    apply NoDup_app. split; [exact Hnd|]. split; [|apply NoDup_singleton].
    intros x Hx Hx'. apply list_elem_of_singleton in Hx'. subst x.
    apply list_elem_of_fmap in Hx as (p & Hp & Hin).
    apply (Hfresh p Hin). rewrite <- Hp.
    by rewrite newPost_lookup, Hnoid.
Qed.

Lemma unique_ids_preserved_witness :
  NoDup (ids (blogPosts (state_after (delete_handler "post_1678886400000") init)))
  ∧ NoDup (ids (blogPosts (state_after
       (put_handler "post_1678886400000" (VObj {[ "id" := VStr "post_1678972800000" ]}))
       init))).
Proof.
  assert (NoDup (ids (blogPosts init))) as Hnd.
  { apply NoDup_cons. split.
    - intros Hin. apply list_elem_of_singleton in Hin.
      vm_compute in Hin. discriminate.
    - apply NoDup_singleton. }
  destruct (unique_ids_preserved init Hnd) as (Hput & Hdel & _).
  split; [apply Hdel | apply Hput].
Defined.

(** Every record a create stores has an [id] and a [timestamp] field, and
    no later operation takes them away: if all records of a collection
    carry both fields, so do all records after any sequence of store
    operations. *)
Theorem records_keep_id_and_timestamp (os : list op) (s : state) :
  (∀ p, p ∈ blogPosts s → is_Some (p !! "id") ∧ is_Some (p !! "timestamp")) →
  ∀ p, p ∈ blogPosts (exec_all os s) →
       is_Some (p !! "id") ∧ is_Some (p !! "timestamp").
Proof.
  revert s. induction os as [|o os IH]; intros s Hs; [exact Hs|].
  simpl. apply IH. clear IH.
  destruct o as [|t_id t_ts payload|postId payload|postId]; cbn [exec].
  - exact Hs.
  - intros p. rewrite post_handler_posts.
    intros [Hin|Hin%list_elem_of_singleton]%elem_of_app; [by apply Hs|].
    subst p. rewrite !newPost_lookup.
    split; destruct (own_props payload !! _); eauto.
  - intros p. unfold state_after.
    destruct (list_find (λ p, id_is postId p) (blogPosts s))
      as [[index old]|] eqn:Hfind.
    + rewrite (put_handler_found _ _ _ _ _ Hfind). simpl.
      destruct (find_holds _ _ _ _ Hfind) as [Hl Hid].
      intros (j & Hj)%list_elem_of_lookup.
      apply list_lookup_insert_Some in Hj as [(_ & <- & _)|[_ Hj]].
      * rewrite !merged_lookup. simpl. split; [eauto|].
        destruct (own_props payload !! "timestamp"); [eauto|].
        apply Hs. apply list_elem_of_lookup. eauto.
      * apply Hs. apply list_elem_of_lookup. eauto.
    + rewrite (put_handler_missing _ _ _ Hfind). simpl. apply Hs.
  - intros p. rewrite delete_handler_posts.
    intros [_ Hin]%list_elem_of_filter. by apply Hs.
Qed.

Lemma records_keep_id_and_timestamp_witness :
  is_Some (seed2 !! "id") ∧ is_Some (seed2 !! "timestamp").
Proof.
  apply (records_keep_id_and_timestamp
           [OpCreate 5 6 (VArr [VNull]); OpDelete "post_1678886400000"] init).
  - intros p Hin. simpl in Hin.
    apply elem_of_cons in Hin as [->|Hin];
      [|apply list_elem_of_singleton in Hin as ->];
      split; vm_compute; eauto.
  - cbn [exec_all exec]. rewrite delete_handler_posts, post_handler_posts.
    apply list_elem_of_filter. split.
    + apply keeps_iff. vm_compute. discriminate.
    + simpl. right. left.
Defined.

(** ** Further properties of the stack *)

Lemma production_part_keeps_posts
    (env : option string) (static_file : list string → option string)
    (index_html : string + js_error) (req : request) (s : state) :
  blogPosts (run (if production env
                  then production_routes env static_file index_html
                  else []) req s).2
  = blogPosts s.
Proof.
  destruct (production env); [|done].
  unfold production_routes, static_middleware, index_handler.
  cbn [run]. rewrite bind_run.
  destruct (req_method req); simpl;
    try destruct (static_file (req_path req)); simpl; try done.
  rewrite bind_run. by destruct index_html.
Qed.

(** What one request can do to the collection, whatever the mode, the
    static files and the index document are: a GET (or a method without
    a route) leaves it as it is, a POST leaves it or appends the new
    record, a PUT keeps its length and its ids, a DELETE only removes
    records. *)
Theorem request_effect_on_collection
    (env : option string) (static_file : list string → option string)
    (index_html : string + js_error) (t_id t_ts : Z)
    (req : request) (s : state) :
  let l := blogPosts s in
  let l' := blogPosts (handle env static_file index_html t_id t_ts req s).2 in
  match req_method req with
  | GET | OTHER => l' = l
  | POST => l' = l ∨ l' = l ++ [newPost t_id t_ts (req_body req)]
  | PUT => length l' = length l ∧ ids l' = ids l
  | DELETE => l' `sublist_of` l
  end.
Proof.
  intros l l'. subst l l'. unfold handle, app. rewrite run_app.
  unfold api_routes. cbn [run].
  destruct (match_path posts_path (req_path req)) as [ps|];
    destruct (match_path posts_id_path (req_path req)) as [ps'|];
    destruct (req_method req); simpl;
    rewrite ?bind_run; simpl;
    rewrite ?production_part_keeps_posts; try done; try (by left).
  all: try (by right).
  all: try (split; [apply put_handler_length | apply put_handler_ids]).
  all: pose proof (delete_handler_posts s (param_id ps')) as Hdel;
       unfold state_after in Hdel; rewrite Hdel; apply sublist_filter.
Qed.



(** When [sendFile] fails on the index document, the fallback's answer
    is the error middleware's: the error's status (500 without one), the
    fixed message and, the fallback existing in production only, an
    empty [error] object; the failure is logged and the collection is
    untouched. *)
Theorem missing_index_is_an_error_answer
    (env : option string) (static_file : list string → option string)
    (index_html : string + js_error) (t_id t_ts : Z)
    (req : request) (s : state) (err : js_error) :
  production env = true →
  req_method req = GET →
  api_matches req = false →
  static_file (req_path req) = None →
  index_html = inr err →
  handle env static_file index_html t_id t_ts req s
  = (Some (mkResponse (js_or (err_status err) (VNum 500))
             (BJson (VObj {[ "message" := VStr
                   "An unexpected error occurred. Please try again later.";
                 "error" := VObj ∅ ]}))),
     mkState (blogPosts s)
       (logs s ++ [(Error, "Unhandled Error: " +:+ err_message err)])).
Proof.
  intros Hprod Hget Hapi Hstatic ->. unfold handle, app. rewrite run_app.
  rewrite (api_routes_unmatched _ _ _ _ Hapi), Hprod.
  unfold production_routes, static_middleware, index_handler. cbn [run].
  rewrite bind_run, Hget, Hstatic. simpl.
  unfold error_middleware, error_details.
  unfold production in Hprod. apply String.eqb_eq in Hprod. rewrite Hprod.
  reflexivity.
Qed.

Lemma missing_index_is_an_error_answer_witness :
  result_of (handle (Some "production") (λ _, None)
               (inr (mkError "ENOENT" (Some (VNum 404)) {[ "status" := VNum 404 ]}))
               0 0 (mkRequest GET ["deep"; "link"] VNull)) init
  = Some (mkResponse (VNum 404)
            (BJson (VObj {[ "message" := VStr
                  "An unexpected error occurred. Please try again later.";
                "error" := VObj ∅ ]}))).
Proof.
  unfold result_of.
  rewrite (missing_index_is_an_error_answer (Some "production") (λ _, None)
             (inr (mkError "ENOENT" (Some (VNum 404)) {[ "status" := VNum 404 ]}))
             0 0 (mkRequest GET ["deep"; "link"] VNull) init
             (mkError "ENOENT" (Some (VNum 404)) {[ "status" := VNum 404 ]}));
    reflexivity.
Defined.

(** The error middleware never answers with a falsy status (0, null, an
    empty string): whatever the error holds, the status it sets is
    truthy; and it never touches the collection. *)
Theorem error_status_is_truthy
    (env : option string) (err : js_error) (s : state) :
  truthy (status (result_of (error_middleware env err) s)) = true
  ∧ blogPosts (state_after (error_middleware env err) s) = blogPosts s.
Proof.
  split; [|reflexivity].
  rewrite error_middleware_result. simpl. unfold js_or.
  destruct (err_status err) as [v|]; [|reflexivity].
  by destruct (truthy v) eqn:Hv.
Qed.



(** ** The settings that depend on the mode *)

(** The four places that read the mode agree: an error answer carries
    details only in a setup where CORS admits every origin, the logger
    runs at debug level and the static fallback is not registered; in
    production CORS admits the one fixed origin, the logger runs at info
    level and no error answer carries details. *)
Theorem mode_settings_agree (env : option string) :
  (∀ err, error_details env err ≠ VObj ∅ →
     origin (corsOptions env) = "*"
     ∧ logger_level env = "debug"
     ∧ ∀ static_file index_html t_id t_ts,
         app env static_file index_html t_id t_ts = api_routes t_id t_ts)
  ∧ (production env = true →
     origin (corsOptions env) = "https://your-angular-app-domain.com"
     ∧ logger_level env = "info"
     ∧ ∀ err, error_details env err = VObj ∅).
Proof.
  unfold error_details, corsOptions, logger_level, app, production. split.
  - intros err Hdetails.
    destruct (String.eqb (NODE_ENV env) "development") eqn:Hdev; [|done].
    apply String.eqb_eq in Hdev. rewrite Hdev. simpl.
    split; [done|]. split; [done|]. reflexivity.
  - intros Hprod. rewrite Hprod. apply String.eqb_eq in Hprod.
    rewrite Hprod. done.
Qed.

Lemma mode_settings_agree_witness :
  origin (corsOptions None) = "*"
  ∧ origin (corsOptions (Some "production"))
    = "https://your-angular-app-domain.com".
Proof.
  destruct (mode_settings_agree None) as [Hdev _].
  destruct (mode_settings_agree (Some "production")) as [_ Hprod].
  split.
  - apply (Hdev (mkError "boom" None {[ "code" := VNum 1 ]})).
    intros H.
    apply (f_equal (λ v, match v with VObj m => m !! "code" | _ => None end))
      in H.
    vm_compute in H. discriminate.
  - apply Hprod. reflexivity.
Defined.

(** Every method a route is registered for, in either mode, is one that
    the CORS options allow. *)
Theorem routed_methods_are_allowed
    (env : option string) (static_file : list string → option string)
    (index_html : string + js_error) (t_id t_ts : Z) (l : layer) (m : method) :
  l ∈ app env static_file index_html t_id t_ts →
  layer_method l = Some m →
  m ∈ methods (corsOptions env).
Proof.
  unfold app, api_routes, production_routes. intros Hin Hm.
  assert (m = GET ∨ m = POST ∨ m = PUT ∨ m = DELETE) as Hcases.
  { destruct (production env); simpl in Hin;
      repeat (apply elem_of_cons in Hin as [->|Hin];
              [simpl in Hm; naive_solver|]);
      by apply elem_of_nil in Hin. }
  simpl. destruct Hcases as [Hm'|[Hm'|[Hm'|Hm']]]; subst m; repeat constructor.
Qed.

Lemma routed_methods_are_allowed_witness :
  PUT ∈ methods (corsOptions (Some "production")).
Proof.
  apply (routed_methods_are_allowed (Some "production") (λ _, None) (inl "") 0 0
           (Route PUT posts_id_path
              (λ params req, put_handler (param_id params) (req_body req)))).
  - unfold app, api_routes. set_solver.
  - reflexivity.
Defined.

(** ** Array payloads *)

Lemma pretty_N_go_head (x : N) (s : string) :
  (0 < x)%N ∨ (∃ d r, s = String (pretty_N_char d) r) →
  ∃ d r, pretty_N_go x s = String (pretty_N_char d) r.
Proof.
  revert s. induction (N.lt_wf_0 x) as [x _ IH]; intros s Hs.
  assert (x = 0 ∨ 0 < x)%N as [->|Hpos] by lia.
  - rewrite pretty_N_go_0. destruct Hs as [Hs|Hs]; [lia|done].
  - rewrite pretty_N_go_step by done. apply IH.
    + by apply N.div_lt.
    + right. eauto.
Qed.

Lemma pretty_nat_head (i : nat) :
  ∃ d r, (pretty i : string) = String (pretty_N_char d) r.
Proof.
  unfold pretty, pretty_nat, pretty, pretty_N.
  destruct (decide (N.of_nat i = 0%N)) as [|Hne].
  - by exists 0%N, "".
  - apply pretty_N_go_head. left. lia.
Qed.

Lemma index_key_not_letter (i : nat) (c : Ascii.ascii) (r : string) :
  (Ascii.nat_of_ascii c < 48 ∨ 57 < Ascii.nat_of_ascii c)%nat →
  (pretty i : string) ≠ String c r.
Proof.
  intros Hc. destruct (pretty_nat_head i) as (d & r' & ->).
  intros [= Heq _]. subst c. revert Hc.
  unfold pretty_N_char. repeat case_match; intros Hc; vm_compute in Hc; lia.
Qed.

Lemma indexed_keys_NoDup (l : list value) :
  NoDup (imap (λ i v, (pretty i : string, v)) l).*1.
Proof.
  rewrite fmap_imap. apply NoDup_alt. intros i j k.
  rewrite !list_lookup_imap.
  destruct (l !! i), (l !! j); simpl; try done.
  intros [= <-] [= Hij]. by apply (inj pretty) in Hij.
Qed.

Lemma indexed_lookup (l : list value) (i : nat) :
  indexed l !! (pretty i : string) = l !! i.
Proof.
  unfold indexed. destruct (l !! i) as [v|] eqn:Hi.
  - apply elem_of_list_to_map; [apply indexed_keys_NoDup|].
    apply elem_of_lookup_imap. eauto.
  - apply not_elem_of_list_to_map. rewrite fmap_imap.
    intros (j & v & Hk & Hj)%elem_of_lookup_imap. simpl in Hk.
    apply (inj pretty) in Hk. congruence.
Qed.

Lemma indexed_lookup_other (l : list value) (k : string) :
  (∀ i : nat, k ≠ pretty i) → indexed l !! k = None.
Proof.
  intros Hk. unfold indexed. apply not_elem_of_list_to_map. rewrite fmap_imap.
  intros (j & v & Heq & _)%elem_of_lookup_imap. by apply (Hk j).
Qed.

(** A create whose payload is an array stores every element under its
    index, written in decimal; such keys never meet [id] or [timestamp],
    so the record has the generated id and the generated timestamp. *)
Theorem create_from_array (t_id t_ts : Z) (l : list value) :
  let r := newPost t_id t_ts (VArr l) in
  r !! "id" = Some (VStr ("post_" +:+ pretty t_id))
  ∧ r !! "timestamp" = Some (VNum t_ts)
  ∧ ∀ i : nat, r !! (pretty i : string) = l !! i.
Proof.
  intros r. subst r. rewrite !newPost_lookup. simpl.
  rewrite !indexed_lookup_other
    by (intros i Heq; symmetry in Heq; revert Heq;
        apply index_key_not_letter; vm_compute; lia).
  split; [done|]. split; [done|].
  intros i. rewrite newPost_lookup. simpl. rewrite indexed_lookup.
  destruct (l !! i) eqn:Hi; [done|].
  rewrite !decide_False; [done| |];
    apply index_key_not_letter; vm_compute; lia.
Qed.

(** ** Create followed by update *)

Lemma find_fresh_last (l : list post) (postId : string) (np : post) :
  (∀ p, p ∈ l → p !! "id" ≠ Some (VStr postId)) →
  np !! "id" = Some (VStr postId) →
  list_find (λ p, id_is postId p) (l ++ [np]) = Some (length l, np).
Proof.
  intros Hfresh Hid.
  rewrite list_find_app_r.
  - simpl. rewrite decide_True by (by apply Is_true_true, id_is_true).
    reflexivity.
  - apply list_find_None, Forall_forall. intros p Hin Hp.
    apply (Hfresh p Hin). apply id_is_true. by apply Is_true_true.
Qed.

(** A record created under a fresh generated id can be edited through
    that id: the update answers 200 with the payload laid over the
    created record, which it replaces at the end of the collection, the
    earlier records staying as they were. *)
Theorem create_then_update_edits_new_record
    (s : state) (t_id t_ts : Z) (payload update : value) :
  own_props payload !! "id" = None →
  (∀ p, p ∈ blogPosts s → p !! "id" ≠ Some (VStr ("post_" +:+ pretty t_id))) →
  let postId := "post_" +:+ pretty t_id in
  let s1 := state_after (post_handler t_id t_ts payload) s in
  let r := merged (newPost t_id t_ts payload) update postId in
  result_of (put_handler postId update) s1 = json 200 (VObj r)
  ∧ blogPosts (state_after (put_handler postId update) s1) = blogPosts s ++ [r].
Proof.
  intros Hnoid Hfresh postId s1 r.
  assert (list_find (λ p, id_is postId p) (blogPosts s1)
          = Some (length (blogPosts s), newPost t_id t_ts payload)) as Hfind.
  { unfold s1. rewrite post_handler_posts. apply find_fresh_last; [done|].
    by rewrite newPost_lookup, Hnoid. }
  unfold result_of, state_after.
  rewrite (put_handler_found _ _ _ _ _ Hfind). simpl.
  split; [done|].
  replace (length (blogPosts s)) with (length (blogPosts s) + 0)%nat by lia.
  exact (insert_app_r (blogPosts s) [newPost t_id t_ts payload] 0 r).
Qed.

Lemma create_then_update_edits_new_record_witness :
  let created := newPost 1700000000000 1700000000001
                   (VObj {[ "title" := VStr "T" ]}) in
  let postId := "post_" +:+ pretty 1700000000000 in
  blogPosts (state_after
    (put_handler postId (VObj {[ "title" := VStr "Edited" ]}))
    (state_after (post_handler 1700000000000 1700000000001
                    (VObj {[ "title" := VStr "T" ]})) init))
  = [seed1; seed2]
    ++ [merged created (VObj {[ "title" := VStr "Edited" ]}) postId].
Proof.
  intros created postId.
  apply (create_then_update_edits_new_record init 1700000000000 1700000000001
           (VObj {[ "title" := VStr "T" ]})
           (VObj {[ "title" := VStr "Edited" ]})).
  - reflexivity.
  - intros p Hin. simpl in Hin.
    apply elem_of_cons in Hin as [->|Hin];
      [|apply list_elem_of_singleton in Hin as ->];
      vm_compute; discriminate.
Defined.
